(** * cassandra_keyspace: the keyspace reconciler of the Ansible module

    A shallow embedding of [library/cassandra_keyspace.py].  The module
    talks to a Cassandra cluster only through [session.execute]; the
    session is therefore an interface here (class [Session]) and the
    module's functions are programs in a small monad that threads the
    session state, stops at the first exception and records every call
    made to the session together with its answer. *)

From Stdlib Require Import Ascii String.
From stdpp Require Import gmap strings list pretty.

Local Open Scope string_scope.

(** ** Python values, exceptions and the [%] operator *)

(** The values the module interpolates into statements or binds as
    statement parameters: [str], [int] and [bool] (the types Ansible
    gives the module's parameters). *)
Inductive pyval : Type :=
  | PyStr (s : string)
  | PyInt (n : Z)
  | PyBool (b : bool).

#[global] Instance pyval_eq_dec : EqDecision pyval.
Proof. solve_decision. Defined.

(** [str(v)], which is what the [%s] conversion applies. *)
Definition str (v : pyval) : string :=
  match v with
  | PyStr s => s
  | PyInt n => pretty n
  | PyBool true => "True"
  | PyBool false => "False"
  end.

(** An exception, as far as the module looks at it: its class and the
    text [str(e)] gives. *)
Record exn : Type := Exception { exc_class : string; exc_message : string }.

#[global] Instance exn_eq_dec : EqDecision exn.
Proof. solve_decision. Defined.

Definition str_exc (e : exn) : string := exc_message e.

Definition TypeError (msg : string) : exn := Exception "TypeError" msg.
Definition ValueError (msg : string) : exn := Exception "ValueError" msg.

(** [fmt % args] for a tuple [args].  The module's templates use the
    [%s] conversion only; [%%] is the literal percent sign.  Too few or
    too many arguments raise [TypeError] as in Python.  Any other
    conversion character is outside the modelled fragment and yields a
    [ValueError]; no template of the module reaches that case. *)
Fixpoint py_mod (fmt : string) (args : list pyval) : exn + string :=
  match fmt with
  | EmptyString =>
      match args with
      | [] => inr EmptyString
      | _ :: _ => inl (TypeError "not all arguments converted during string formatting")
      end
  | String "%"%char (String "s"%char rest) =>
      match args with
      | [] => inl (TypeError "not enough arguments for format string")
      | a :: args' =>
          match py_mod rest args' with
          | inl e => inl e
          | inr out => inr (str a +:+ out)
          end
      end
  | String "%"%char (String "%"%char rest) =>
      match py_mod rest args with
      | inl e => inl e
      | inr out => inr (String "%"%char out)
      end
  | String "%"%char _ => inl (ValueError "unsupported format character")
  | String c rest =>
      match py_mod rest args with
      | inl e => inl e
      | inr out => inr (String c out)
      end
  end.

(** ** Statements and the session interface *)

Definition GET_KEYSPACE : string :=
  "SELECT * FROM system_schema.keyspaces WHERE keyspace_name = %s limit 1;".
Definition DROP_KEYSPACE : string := "DROP KEYSPACE %s".

(** One call [session.execute(query, parameters)]; [parameters] is
    [None] when the call passes the statement text alone. *)
Record call : Type := Execute {
  query : string;
  parameters : option (list pyval)
}.

#[global] Instance call_eq_dec : EqDecision call.
Proof. solve_decision. Defined.

(** A statement is recognised by its leading keyword. *)
Definition is_create (c : call) : bool := String.prefix "CREATE " (query c).
Definition is_drop (c : call) : bool := String.prefix "DROP " (query c).
Definition is_select (c : call) : bool := String.prefix "SELECT " (query c).
Definition mutating (c : call) : bool := is_create c || is_drop c.

(** The calls the module makes. *)
Definition get_call (name : string) : call :=
  Execute GET_KEYSPACE (Some [PyStr name]).
Definition drop_call (name : string) : call :=
  Execute DROP_KEYSPACE (Some [PyStr name]).

(** The text of the CREATE statement as the specification gives it, with
    the values substituted: the [replication_factor] form for
    [SimpleStrategy], the datacenter form otherwise. *)
Definition create_cql (name topology datacenter : string)
    (replication_factor : Z) (durable_writes : bool) : string :=
  if String.eqb topology "SimpleStrategy" then
    "CREATE KEYSPACE " +:+ name +:+ " WITH REPLICATION = { 'class' : '" +:+ topology
      +:+ "', 'replication_factor' : '" +:+ pretty replication_factor
      +:+ "' } AND DURABLE_WRITES = " +:+ (if durable_writes then "True" else "False")
      +:+ ";"
  else
    "CREATE KEYSPACE " +:+ name +:+ " WITH REPLICATION = { 'class' : '" +:+ topology
      +:+ "', '" +:+ datacenter +:+ "' : '" +:+ pretty replication_factor
      +:+ "' } AND DURABLE_WRITES = " +:+ (if durable_writes then "True" else "False")
      +:+ ";".

Definition create_call (name topology datacenter : string)
    (replication_factor : Z) (durable_writes : bool) : call :=
  Execute (create_cql name topology datacenter replication_factor durable_writes) None.

(** A session over state [S].  Rows are dictionaries ([dict_factory]):
    finite maps from column names to cells of type [Cell].  A call
    either raises or answers a list of rows, and may change the state. *)
Class Session (Cell S : Type) : Type :=
  execute : call → S → (exn + list (gmap string Cell)) * S.

(** ** The monad of the module's functions *)

Section Reconciler.
Context {Cell : Type} `{!EqDecision Cell}.
Context {S : Type} `{!Session Cell S}.

Abbreviation Row := (gmap string Cell).

(** What the log keeps of one call: the call and its answer. *)
Definition event : Type := call * (exn + list Row).

Record run (A : Type) : Type := Run {
  outcome : exn + A;
  final : S;
  trace : list event
}.
Arguments Run {A} _ _ _.
Arguments outcome {A} _.
Arguments final {A} _.
Arguments trace {A} _.

Definition M (A : Type) : Type := S → run A.

Definition ret {A} (a : A) : M A := λ s, Run (inr a) s [].

Definition lift {A} (r : exn + A) : M A := λ s, Run r s [].

Definition bind {A B} (m : M A) (k : A → M B) : M B := λ s,
  let r := m s in
  match outcome r with
  | inl e => Run (inl e) (final r) (trace r)
  | inr a =>
      let r' := k a (final r) in
      Run (outcome r') (final r') (trace r ++ trace r')
  end.

Definition session_execute (c : call) : M (list Row) := λ s,
  let '(answer, s') := execute c s in
  Run answer s' [(c, answer)].

Notation "x <~ m ;; k" := (bind m (λ x, k))
  (at level 100, m at next level, right associativity).
Notation "m ;;; k" := (bind m (λ _, k))
  (at level 100, right associativity).

(** ** The module's functions *)

(** [bool(x)] for [x] a row or [None]: a dictionary is true when it is
    not empty. *)
Definition py_bool (x : option Row) : bool :=
  match x with
  | None => false
  | Some row => negb (bool_decide (row = ∅))
  end.

(** [a != b] on rows or [None]. *)
Definition py_ne (a b : option Row) : bool := negb (bool_decide (a = b)).

(** The [for row in rows: return row] loop returns the first row; when
    there is none the function falls off its end and returns [None]. *)
Definition get_keyspace (name : string) : M (option Row) :=
  rows <~ session_execute (Execute GET_KEYSPACE (Some [PyStr name])) ;;
  ret (head rows).

Definition keyspace_delete (in_check_mode : bool) (name : string) : M bool :=
  existing_keyspace <~ get_keyspace name ;;
  if py_bool existing_keyspace then
    (if negb in_check_mode
     then session_execute (Execute DROP_KEYSPACE (Some [PyStr name])) ;;; ret tt
     else ret tt) ;;;
    ret true
  else
    ret false.

Definition keyspace_create (check_mode : bool) (name topology datacenter : string)
    (replication_factor : Z) (durable_writes : bool) : M bool :=
  existing_keyspace <~ get_keyspace name ;;
  let compare :=
    (new_keyspace <~ get_keyspace name ;;
     ret (py_ne new_keyspace existing_keyspace)) in
  if py_bool existing_keyspace then
    if check_mode then ret false else compare
  else
    if check_mode then ret true
    else
      (if String.eqb topology "SimpleStrategy" then
         let query := "CREATE KEYSPACE %s WITH REPLICATION = { 'class' : '%s', 'replication_factor' : '%s' } AND DURABLE_WRITES = %s;" in
         statement <~ lift (py_mod query
           [PyStr name; PyStr topology; PyInt replication_factor; PyBool durable_writes]) ;;
         session_execute (Execute statement None)
       else
         let query := "CREATE KEYSPACE %s WITH REPLICATION = { 'class' : '%s', '%s' : '%s' } AND DURABLE_WRITES = %s;" in
         statement <~ lift (py_mod query
           [PyStr name; PyStr topology; PyStr datacenter; PyInt replication_factor;
            PyBool durable_writes]) ;;
         session_execute (Execute statement None)) ;;;
      compare.

(** ** The entry point *)

(** The parameters [main] reads from [module.params]. *)
Record module_params : Type := Params {
  p_name : string;
  p_topology : string;
  p_datacenter : string;
  p_replication_factor : Z;
  p_durable_writes : bool;
  p_state : string
}.

(** [module.exit_json] and [module.fail_json] both end the process. *)
Inductive module_result : Type :=
  | exit_json (changed : bool) (name : string)
  | fail_json (msg : string).

(** [main] after argument parsing.  Building the cluster object and
    connecting is the driver's work: its result, a session or the
    exception the [try] block caught, is the argument [connected]. *)
Definition main (cassandra_dep_found : bool) (connected : exn + S)
    (check_mode : bool) (params : module_params) : module_result * list event :=
  let name := p_name params in
  let state := p_state params in
  if negb cassandra_dep_found then
    (fail_json "the python cassandra-driver module is required", [])
  else
    match connected with
    | inl e =>
        (fail_json ("unable to connect to cassandra, check login_user and login_password are correct. Exception message: "
                    +:+ str_exc e), [])
    | inr session =>
        if String.eqb state "present" then
          let r := keyspace_create check_mode name (p_topology params)
                     (p_datacenter params) (p_replication_factor params)
                     (p_durable_writes params) session in
          match outcome r with
          | inl e => (fail_json (str_exc e), trace r)
          | inr changed => (exit_json changed name, trace r)
          end
        else if String.eqb state "absent" then
          let r := keyspace_delete check_mode name session in
          match outcome r with
          | inl e => (fail_json (str_exc e), trace r)
          | inr changed => (exit_json changed name, trace r)
          end
        else (exit_json false name, [])
    end.

(** ** Logs and runs *)

(** The calls of a log, in order, and the mutating ones among them. *)
Definition calls (t : list event) : list call := t.*1.
Definition mutations (t : list event) : list call :=
  List.filter mutating (calls t).

(** An event whose call answered rather than raised. *)
Definition succeeded (ev : event) : Prop := ∃ rows, ev.2 = inr rows.

(** Prefix the log of a run with what happened before it. *)
Definition extend {A} (t : list event) (r : run A) : run A :=
  Run (outcome r) (final r) (t ++ trace r).

(** What the last two lines of [keyspace_create] do from state [s]:
    query again and compare with the row found first (lemma
    [compare_run] relates it to the program). *)
Definition compare_from (existing : option Row) (name : string) (s : S) : run bool :=
  match execute (get_call name) s with
  | (inl e, s') => Run (inl e) s' [(get_call name, inl e)]
  | (inr rows, s') =>
      Run (inr (py_ne (head rows) existing)) s' [(get_call name, inr rows)]
  end.

(** A log in which every call is the metadata query for [name]. *)
Definition only_metadata_queries (name : string) (t : list event) : Prop :=
  Forall (λ c, c = get_call name ∧ is_select c = true) (calls t)
  ∧ mutations t = [].


(** The reading of [changed] as "a mutation was or would be applied":
    a returned value is [True] exactly when the run, or the same call
    with check mode off from the same state, issues a CREATE or DROP. *)
Definition changed_means_mutation (cm : bool) (name topology datacenter : string)
    (rf : Z) (dw : bool) (s : S) : Prop :=
  ∀ changed,
    outcome (keyspace_create cm name topology datacenter rf dw s) = inr changed →
    (changed = true ↔
     mutations (trace (keyspace_create cm name topology datacenter rf dw s)) ≠ []
     ∨ mutations (trace (keyspace_create false name topology datacenter rf dw s)) ≠ []).

(** A run stops at the first call that raises, with that exception;
    a run that returns has seen no exception. *)
Definition fail_stop {A} (r : run A) : Prop :=
  match outcome r with
  | inl e => ∃ pre c, trace r = (pre ++ [(c, inl e)])%list ∧ Forall succeeded pre
  | inr _ => Forall succeeded (trace r)
  end.

End Reconciler.

Arguments event : clear implicits.
Arguments run : clear implicits.
Arguments M : clear implicits.
Arguments module_params : clear implicits.
Arguments module_result : clear implicits.
Arguments Run {Cell S A} _ _ _.
Arguments outcome {Cell S A} _.
Arguments final {Cell S A} _.
Arguments trace {Cell S A} _.
Arguments extend {Cell S A} _ _.
Arguments fail_stop {Cell S A} _.

(** ** An in-memory session

    A small stand-in for a cluster, used to run the module's functions
    on concrete inputs: the state maps each keyspace name to its
    metadata row.  The metadata query answers the row of the bound name,
    a [DROP] removes it, and a [CREATE KEYSPACE] statement adds a row for
    the word that follows the keyword. *)
Module MemorySession.

Definition cluster : Type := gmap string (gmap string string).

Fixpoint strip_prefix (p s : string) : option string :=
  match p, s with
  | EmptyString, _ => Some s
  | String a p', String b s' => if Ascii.eqb a b then strip_prefix p' s' else None
  | String _ _, EmptyString => None
  end.

Fixpoint first_word (s : string) : string :=
  match s with
  | EmptyString => EmptyString
  | String c rest => if Ascii.eqb c " " then EmptyString else String c (first_word rest)
  end.

Definition created_name (statement : string) : option string :=
  match strip_prefix "CREATE KEYSPACE " statement with
  | Some rest =>
      let w := first_word rest in
      if String.eqb w "" then None else Some w
  | None => None
  end.

Definition SyntaxException : exn :=
  Exception "SyntaxException" "line 1: no viable alternative at input".
Definition AlreadyExists (n : string) : exn :=
  Exception "AlreadyExists" ("Keyspace '" +:+ n +:+ "' already exists").
Definition ConfigurationException (n : string) : exn :=
  Exception "ConfigurationException" ("Cannot drop non existing keyspace '" +:+ n +:+ "'.").

Definition metadata_row (n : string) : gmap string string :=
  {[ "keyspace_name" := n ]}.

Definition mem_execute (c : call) (ks : cluster)
    : (exn + list (gmap string string)) * cluster :=
  match parameters c with
  | Some [PyStr n] =>
      if String.eqb (query c) GET_KEYSPACE then
        (inr (option_list (ks !! n)), ks)
      else if String.eqb (query c) DROP_KEYSPACE then
        match ks !! n with
        | Some _ => (inr [], delete n ks)
        | None => (inl (ConfigurationException n), ks)
        end
      else (inl SyntaxException, ks)
  | Some _ => (inl SyntaxException, ks)
  | None =>
      match created_name (query c) with
      | Some n =>
          match ks !! n with
          | None => (inr [], <[n := metadata_row n]> ks)
          | Some _ => (inl (AlreadyExists n), ks)
          end
      | None => (inl SyntaxException, ks)
      end
  end.

#[global] Instance mem_session : Session string cluster := mem_execute.

(** A cluster that lists the keyspace [foo]. *)
Definition foo_cluster : cluster := {[ "foo" := metadata_row "foo" ]}.

End MemorySession.

(** ** A scripted session

    The state is the list of answers still to be given; each call
    consumes the next one, whatever the statement.  It can play back
    any behaviour, including answers no cluster would give. *)
Module ScriptedSession.

Definition script : Type := list (exn + list (gmap string string)).

Definition exhausted : exn := Exception "NoHostAvailable" "script exhausted".

Definition scripted_execute (c : call) (s : script)
    : (exn + list (gmap string string)) * script :=
  match s with
  | [] => (inl exhausted, [])
  | answer :: s' => (answer, s')
  end.

#[global] Instance scripted_session : Session string script := scripted_execute.


Definition no_row_unlisted_script : script := [inr []; inr []; inr []].

(** A script in which the keyspace's row changes between two reads. *)
Definition altered_row_script : script :=
  [inr [{[ "durable_writes" := "True" ]}]; inr [{[ "durable_writes" := "False" ]}]].

End ScriptedSession.

Lemma py_mod_simple name topology rf dw :
  py_mod "CREATE KEYSPACE %s WITH REPLICATION = { 'class' : '%s', 'replication_factor' : '%s' } AND DURABLE_WRITES = %s;"
    [PyStr name; PyStr topology; PyInt rf; PyBool dw]
  = inr ("CREATE KEYSPACE " +:+ name +:+ " WITH REPLICATION = { 'class' : '" +:+ topology
      +:+ "', 'replication_factor' : '" +:+ pretty rf
      +:+ "' } AND DURABLE_WRITES = " +:+ (if dw then "True" else "False") +:+ ";").
Proof. destruct dw; reflexivity. Qed.

Lemma py_mod_network name topology dc rf dw :
  py_mod "CREATE KEYSPACE %s WITH REPLICATION = { 'class' : '%s', '%s' : '%s' } AND DURABLE_WRITES = %s;"
    [PyStr name; PyStr topology; PyStr dc; PyInt rf; PyBool dw]
  = inr ("CREATE KEYSPACE " +:+ name +:+ " WITH REPLICATION = { 'class' : '" +:+ topology
      +:+ "', '" +:+ dc +:+ "' : '" +:+ pretty rf
      +:+ "' } AND DURABLE_WRITES = " +:+ (if dw then "True" else "False") +:+ ";").
Proof. destruct dw; reflexivity. Qed.

Lemma create_call_is_create name topology dc rf dw :
  is_create (create_call name topology dc rf dw) = true.
Proof. unfold create_call, create_cql, is_create. simpl. destruct (String.eqb _ _); reflexivity. Qed.

(** * Proofs

    ** Symbolic execution of the module's functions *)

Section Runs.
Context {Cell : Type} `{!EqDecision Cell}.
Context {S : Type} `{!Session Cell S}.

Abbreviation Row := (gmap string Cell).

Implicit Types (s : S) (name topology datacenter : string) (rows : list Row).

Lemma bind_ok {A B} (m : M Cell S A) (k : A → M Cell S B) s a s1 t :
  m s = Run (inr a) s1 t → bind m k s = extend t (k a s1).
Proof. intros H. unfold bind. rewrite H. reflexivity. Qed.

Lemma bind_err {A B} (m : M Cell S A) (k : A → M Cell S B) s e s1 t :
  m s = Run (inl e) s1 t → bind m k s = Run (inl e) s1 t.
Proof. intros H. unfold bind. rewrite H. reflexivity. Qed.

Lemma session_execute_run c s answer s1 :
  execute c s = (answer, s1) →
  session_execute c s = Run answer s1 [(c, answer)].
Proof. intros H. unfold session_execute. rewrite H. reflexivity. Qed.

Lemma get_keyspace_ok name s rows s1 :
  execute (get_call name) s = (inr rows, s1) →
  get_keyspace name s = Run (inr (head rows)) s1 [(get_call name, inr rows)].
Proof.
  intros H. unfold get_keyspace.
  rewrite (bind_ok _ _ _ _ _ _ (session_execute_run _ _ _ _ H)). reflexivity.
Qed.

Lemma get_keyspace_err name s e s1 :
  execute (get_call name) s = (inl e, s1) →
  get_keyspace name s = Run (inl e) s1 [(get_call name, inl e)].
Proof.
  intros H. unfold get_keyspace.
  rewrite (bind_err _ _ _ _ _ _ (session_execute_run _ _ _ _ H)). reflexivity.
Qed.

Lemma compare_run (existing : option Row) name s :
  bind (get_keyspace name) (λ new_keyspace, ret (py_ne new_keyspace existing)) s
  = compare_from existing name s.
Proof.
  unfold compare_from.
  destruct (execute (get_call name) s) as [[e|rows] s'] eqn:H.
  - rewrite (bind_err _ _ _ _ _ _ (get_keyspace_err _ _ _ _ H)). reflexivity.
  - rewrite (bind_ok _ _ _ _ _ _ (get_keyspace_ok _ _ _ _ H)). reflexivity.
Qed.

(** The two branches on [topology] issue the statement [create_cql]. *)
Lemma issue_create_run name topology datacenter rf dw s :
  (if String.eqb topology "SimpleStrategy" then
     bind (lift (py_mod "CREATE KEYSPACE %s WITH REPLICATION = { 'class' : '%s', 'replication_factor' : '%s' } AND DURABLE_WRITES = %s;"
              [PyStr name; PyStr topology; PyInt rf; PyBool dw]))
          (λ statement, session_execute (Execute statement None))
   else
     bind (lift (py_mod "CREATE KEYSPACE %s WITH REPLICATION = { 'class' : '%s', '%s' : '%s' } AND DURABLE_WRITES = %s;"
              [PyStr name; PyStr topology; PyStr datacenter; PyInt rf; PyBool dw]))
          (λ statement, session_execute (Execute statement None))) s
  = session_execute (create_call name topology datacenter rf dw) s.
Proof.
  unfold create_call, create_cql.
  destruct (String.eqb topology "SimpleStrategy").
  - rewrite py_mod_simple. unfold bind, lift, session_execute. cbn [outcome final trace].
    destruct (execute _ s) as [answer s']. reflexivity.
  - rewrite py_mod_network. unfold bind, lift, session_execute. cbn [outcome final trace].
    destruct (execute _ s) as [answer s']. reflexivity.
Qed.

Lemma keyspace_create_query_fails cm name topology datacenter rf dw s e s1 :
  execute (get_call name) s = (inl e, s1) →
  keyspace_create cm name topology datacenter rf dw s
  = Run (inl e) s1 [(get_call name, inl e)].
Proof.
  intros H. unfold keyspace_create.
  apply bind_err, get_keyspace_err, H.
Qed.

Lemma keyspace_create_found_check name topology datacenter rf dw s rows s1 :
  execute (get_call name) s = (inr rows, s1) →
  py_bool (head rows) = true →
  keyspace_create true name topology datacenter rf dw s
  = Run (inr false) s1 [(get_call name, inr rows)].
Proof.
  intros H Hb. unfold keyspace_create.
  rewrite (bind_ok _ _ _ _ _ _ (get_keyspace_ok _ _ _ _ H)).
  cbv beta zeta. rewrite Hb. reflexivity.
Qed.

Lemma keyspace_create_found_apply name topology datacenter rf dw s rows s1 :
  execute (get_call name) s = (inr rows, s1) →
  py_bool (head rows) = true →
  keyspace_create false name topology datacenter rf dw s
  = extend [(get_call name, inr rows)] (compare_from (head rows) name s1).
Proof.
  intros H Hb. unfold keyspace_create.
  rewrite (bind_ok _ _ _ _ _ _ (get_keyspace_ok _ _ _ _ H)).
  cbv beta zeta. rewrite Hb. rewrite compare_run. reflexivity.
Qed.

Lemma keyspace_create_missing_check name topology datacenter rf dw s rows s1 :
  execute (get_call name) s = (inr rows, s1) →
  py_bool (head rows) = false →
  keyspace_create true name topology datacenter rf dw s
  = Run (inr true) s1 [(get_call name, inr rows)].
Proof.
  intros H Hb. unfold keyspace_create.
  rewrite (bind_ok _ _ _ _ _ _ (get_keyspace_ok _ _ _ _ H)).
  cbv beta zeta. rewrite Hb. reflexivity.
Qed.

Lemma keyspace_create_missing_apply name topology datacenter rf dw s rows s1 :
  execute (get_call name) s = (inr rows, s1) →
  py_bool (head rows) = false →
  keyspace_create false name topology datacenter rf dw s
  = match execute (create_call name topology datacenter rf dw) s1 with
    | (inl e, s2) =>
        Run (inl e) s2
          [(get_call name, inr rows);
           (create_call name topology datacenter rf dw, inl e)]
    | (inr answer, s2) =>
        extend [(get_call name, inr rows);
                (create_call name topology datacenter rf dw, inr answer)]
          (compare_from (head rows) name s2)
    end.
Proof.
  intros H Hb. unfold keyspace_create.
  rewrite (bind_ok _ _ _ _ _ _ (get_keyspace_ok _ _ _ _ H)).
  cbv beta zeta. rewrite Hb.
  destruct (execute (create_call _ _ _ _ _) s1) as [[e|answer] s2] eqn:Hc.
  - erewrite bind_err; [reflexivity|].
    rewrite issue_create_run. apply session_execute_run, Hc.
  - erewrite bind_ok; [|rewrite issue_create_run; apply session_execute_run, Hc].
    rewrite compare_run. reflexivity.
Qed.

Lemma keyspace_delete_query_fails cm name s e s1 :
  execute (get_call name) s = (inl e, s1) →
  keyspace_delete cm name s = Run (inl e) s1 [(get_call name, inl e)].
Proof.
  intros H. unfold keyspace_delete.
  apply bind_err, get_keyspace_err, H.
Qed.

Lemma keyspace_delete_missing cm name s rows s1 :
  execute (get_call name) s = (inr rows, s1) →
  py_bool (head rows) = false →
  keyspace_delete cm name s = Run (inr false) s1 [(get_call name, inr rows)].
Proof.
  intros H Hb. unfold keyspace_delete.
  rewrite (bind_ok _ _ _ _ _ _ (get_keyspace_ok _ _ _ _ H)).
  cbv beta. rewrite Hb. reflexivity.
Qed.

Lemma keyspace_delete_found_check name s rows s1 :
  execute (get_call name) s = (inr rows, s1) →
  py_bool (head rows) = true →
  keyspace_delete true name s = Run (inr true) s1 [(get_call name, inr rows)].
Proof.
  intros H Hb. unfold keyspace_delete.
  rewrite (bind_ok _ _ _ _ _ _ (get_keyspace_ok _ _ _ _ H)).
  cbv beta. rewrite Hb. reflexivity.
Qed.

Lemma keyspace_delete_found_apply name s rows s1 :
  execute (get_call name) s = (inr rows, s1) →
  py_bool (head rows) = true →
  keyspace_delete false name s
  = match execute (drop_call name) s1 with
    | (inl e, s2) =>
        Run (inl e) s2 [(get_call name, inr rows); (drop_call name, inl e)]
    | (inr answer, s2) =>
        Run (inr true) s2 [(get_call name, inr rows); (drop_call name, inr answer)]
    end.
Proof.
  intros H Hb. unfold keyspace_delete.
  rewrite (bind_ok _ _ _ _ _ _ (get_keyspace_ok _ _ _ _ H)).
  cbv beta. rewrite Hb. cbn [negb].
  destruct (execute (drop_call name) s1) as [[e|answer] s2] eqn:Hd.
  - erewrite bind_err; [reflexivity|].
    erewrite bind_err; [reflexivity|]. apply session_execute_run, Hd.
  - erewrite bind_ok;
      [|erewrite bind_ok; [reflexivity|apply session_execute_run, Hd]].
    reflexivity.
Qed.

Lemma mutating_get_call name : mutating (get_call name) = false.
Proof. reflexivity. Qed.

Lemma mutating_drop_call name : mutating (drop_call name) = true.
Proof. reflexivity. Qed.

Lemma mutating_create_call name topology datacenter rf dw :
  mutating (create_call name topology datacenter rf dw) = true.
Proof. unfold mutating. rewrite create_call_is_create. reflexivity. Qed.

Lemma compare_from_calls existing name s :
  calls (trace (compare_from existing name s)) = [get_call name].
Proof.
  unfold compare_from. destruct (execute (get_call name) s) as [[e|rows] s']; reflexivity.
Qed.

End Runs.

(** ** Properties of the reconciler *)

Section Properties.
Context {Cell : Type} `{!EqDecision Cell}.
Context {S : Type} `{!Session Cell S}.

Implicit Types (s : S) (name topology datacenter : string) (rf : Z)
  (dw cm : bool) (rows : list (gmap string Cell)).

Lemma keyspace_create_check_calls name topology datacenter rf dw s :
  calls (trace (keyspace_create true name topology datacenter rf dw s)) = [get_call name].
Proof.
  destruct (execute (get_call name) s) as [[e|rows] s1] eqn:H.
  - rewrite (keyspace_create_query_fails _ _ _ _ _ _ _ _ _ H). reflexivity.
  - destruct (py_bool (head rows)) eqn:Hb.
    + rewrite (keyspace_create_found_check _ _ _ _ _ _ _ _ H Hb). reflexivity.
    + rewrite (keyspace_create_missing_check _ _ _ _ _ _ _ _ H Hb). reflexivity.
Qed.

Lemma keyspace_delete_check_calls name s :
  calls (trace (keyspace_delete true name s)) = [get_call name].
Proof.
  destruct (execute (get_call name) s) as [[e|rows] s1] eqn:H.
  - rewrite (keyspace_delete_query_fails _ _ _ _ _ H). reflexivity.
  - destruct (py_bool (head rows)) eqn:Hb.
    + rewrite (keyspace_delete_found_check _ _ _ _ H Hb). reflexivity.
    + rewrite (keyspace_delete_missing _ _ _ _ _ H Hb). reflexivity.
Qed.

Lemma only_metadata_queries_of_calls name (t : list (event Cell)) :
  calls t = [get_call name] ∨ calls t = [] → only_metadata_queries name t.
Proof.
  unfold only_metadata_queries, mutations.
  intros [-> | ->]; split; try reflexivity; repeat constructor.
Qed.

Lemma mutations_extend {A} (t : list (event Cell)) (r : run Cell S A) :
  mutations (trace (extend t r)) = (mutations t ++ mutations (trace r))%list.
Proof.
  unfold mutations, calls, extend. cbn [trace].
  rewrite fmap_app. apply List.filter_app.
Qed.

Lemma mutations_compare_from existing name s :
  mutations (trace (compare_from existing name s)) = [].
Proof.
  unfold mutations. rewrite compare_from_calls. reflexivity.
Qed.

(** At most one mutating statement per call, and which one. *)
Lemma keyspace_create_mutations cm name topology datacenter rf dw s :
  let t := trace (keyspace_create cm name topology datacenter rf dw s) in
  mutations t = [] ∨ mutations t = [create_call name topology datacenter rf dw].
Proof.
  pose proof (mutating_create_call name topology datacenter rf dw) as Hm.
  cbv zeta.
  destruct (execute (get_call name) s) as [[e|rows] s1] eqn:H.
  { rewrite (keyspace_create_query_fails _ _ _ _ _ _ _ _ _ H). left. reflexivity. }
  destruct (py_bool (head rows)) eqn:Hb; destruct cm.
  - rewrite (keyspace_create_found_check _ _ _ _ _ _ _ _ H Hb). left. reflexivity.
  - rewrite (keyspace_create_found_apply _ _ _ _ _ _ _ _ H Hb).
    rewrite mutations_extend, mutations_compare_from. left. reflexivity.
  - rewrite (keyspace_create_missing_check _ _ _ _ _ _ _ _ H Hb). left. reflexivity.
  - rewrite (keyspace_create_missing_apply _ _ _ _ _ _ _ _ H Hb). right.
    destruct (execute (create_call _ _ _ _ _) s1) as [[e|answer] s2].
    + unfold mutations, calls. cbn [trace fmap list_fmap fst List.filter].
      rewrite mutating_get_call, Hm. reflexivity.
    + rewrite mutations_extend, mutations_compare_from.
      unfold mutations, calls. cbn [fmap list_fmap fst List.filter app].
      rewrite mutating_get_call, Hm. reflexivity.
Qed.

Lemma keyspace_delete_mutations cm name s :
  let t := trace (keyspace_delete cm name s) in
  mutations t = [] ∨ mutations t = [drop_call name].
Proof.
  cbv zeta.
  destruct (execute (get_call name) s) as [[e|rows] s1] eqn:H.
  { rewrite (keyspace_delete_query_fails _ _ _ _ _ H). left. reflexivity. }
  destruct (py_bool (head rows)) eqn:Hb; [destruct cm|].
  - rewrite (keyspace_delete_found_check _ _ _ _ H Hb). left. reflexivity.
  - rewrite (keyspace_delete_found_apply _ _ _ _ H Hb). right.
    destruct (execute (drop_call name) s1) as [[e|answer] s2]; reflexivity.
  - rewrite (keyspace_delete_missing _ _ _ _ _ H Hb). left. reflexivity.
Qed.

Lemma fail_stop_compare_from existing name s (t : list (event Cell)) :
  Forall succeeded t →
  fail_stop (extend t (compare_from existing name s)).
Proof.
  intros Ht. unfold fail_stop, extend, compare_from.
  destruct (execute (get_call name) s) as [[e|rows] s']; cbn [outcome trace].
  - exists t, (get_call name). split; [reflexivity|exact Ht].
  - apply Forall_app. split; [exact Ht|].
    repeat constructor. eexists. reflexivity.
Qed.

Lemma keyspace_create_fail_stop cm name topology datacenter rf dw s :
  fail_stop (keyspace_create cm name topology datacenter rf dw s).
Proof.
  destruct (execute (get_call name) s) as [[e|rows] s1] eqn:H.
  { rewrite (keyspace_create_query_fails _ _ _ _ _ _ _ _ _ H).
    exists [], (get_call name). split; [reflexivity|constructor]. }
  assert (Hq : Forall succeeded [(get_call name, inr rows : exn + list (gmap string Cell))])
    by (repeat constructor; eexists; reflexivity).
  destruct (py_bool (head rows)) eqn:Hb; destruct cm.
  - rewrite (keyspace_create_found_check _ _ _ _ _ _ _ _ H Hb). exact Hq.
  - rewrite (keyspace_create_found_apply _ _ _ _ _ _ _ _ H Hb).
    apply fail_stop_compare_from, Hq.
  - rewrite (keyspace_create_missing_check _ _ _ _ _ _ _ _ H Hb). exact Hq.
  - rewrite (keyspace_create_missing_apply _ _ _ _ _ _ _ _ H Hb).
    destruct (execute (create_call _ _ _ _ _) s1) as [[e|answer] s2].
    + eexists [_], _. split; [reflexivity|exact Hq].
    + apply fail_stop_compare_from.
      repeat constructor; eexists; reflexivity.
Qed.

Lemma keyspace_delete_fail_stop cm name s :
  fail_stop (keyspace_delete cm name s).
Proof.
  destruct (execute (get_call name) s) as [[e|rows] s1] eqn:H.
  { rewrite (keyspace_delete_query_fails _ _ _ _ _ H).
    exists [], (get_call name). split; [reflexivity|constructor]. }
  assert (Hq : Forall succeeded [(get_call name, inr rows : exn + list (gmap string Cell))])
    by (repeat constructor; eexists; reflexivity).
  destruct (py_bool (head rows)) eqn:Hb; [destruct cm|].
  - rewrite (keyspace_delete_found_check _ _ _ _ H Hb). exact Hq.
  - rewrite (keyspace_delete_found_apply _ _ _ _ H Hb).
    destruct (execute (drop_call name) s1) as [[e|answer] s2].
    + eexists [_], _. split; [reflexivity|exact Hq].
    + repeat constructor; eexists; reflexivity.
  - rewrite (keyspace_delete_missing _ _ _ _ _ H Hb). exact Hq.
Qed.

(** C1. In check mode neither [keyspace_create] nor [keyspace_delete]
    executes a CREATE or a DROP, whatever the session answers and
    whatever the parameters: every call made is the metadata SELECT for
    the keyspace name.  The same holds for [main] run in check mode,
    for every value of [state]. *)
Theorem check_mode_never_mutates name topology datacenter rf dw s :
  only_metadata_queries name
    (trace (keyspace_create true name topology datacenter rf dw s))
  ∧ only_metadata_queries name (trace (keyspace_delete true name s))
  ∧ ∀ dep_found connected state,
      only_metadata_queries name
        (main dep_found connected true
           (Params name topology datacenter rf dw state)).2.
Proof.
  split; [|split].
  - apply only_metadata_queries_of_calls. left. apply keyspace_create_check_calls.
  - apply only_metadata_queries_of_calls. left. apply keyspace_delete_check_calls.
  - intros dep_found connected state. apply only_metadata_queries_of_calls.
    unfold main. cbn [p_name p_state p_topology p_datacenter p_replication_factor
                      p_durable_writes].
    destruct dep_found; cbn [negb]; [|right; reflexivity].
    destruct connected as [e|session]; [right; reflexivity|].
    destruct (String.eqb state "present").
    + left. rewrite <- (keyspace_create_check_calls name topology datacenter rf dw session).
      destruct (outcome _); reflexivity.
    + destruct (String.eqb state "absent"); [|right; reflexivity].
      left. rewrite <- (keyspace_delete_check_calls name session).
      destruct (outcome _); reflexivity.
Qed.

(** C6. [keyspace_delete] first queries the metadata for [name].  When
    the keyspace is absent it returns [False] and issues no DROP.  When
    it is present it returns [True]: in check mode without any further
    statement, otherwise after issuing the DROP (which is assumed not
    to raise).  The DROP is issued exactly when the keyspace is
    present and check mode is off. *)
Theorem keyspace_delete_spec cm name s rows s1 :
  execute (get_call name) s = (inr rows, s1) →
  let present := py_bool (head rows) in
  let r := keyspace_delete cm name s in
  head (trace r) = Some (get_call name, inr rows)
  ∧ mutations (trace r) = (if present && negb cm then [drop_call name] else [])
  ∧ (present = false → r = Run (inr false) s1 [(get_call name, inr rows)])
  ∧ (present = true → cm = true →
     r = Run (inr true) s1 [(get_call name, inr rows)])
  ∧ (present = true → cm = false →
     ∀ answer s2, execute (drop_call name) s1 = (inr answer, s2) →
     r = Run (inr true) s2
           [(get_call name, inr rows); (drop_call name, inr answer)]).
Proof.
  intros H present r. subst present r.
  destruct (py_bool (head rows)) eqn:Hb; [destruct cm|].
  - rewrite (keyspace_delete_found_check _ _ _ _ H Hb).
    repeat split; try reflexivity; intros; congruence.
  - rewrite (keyspace_delete_found_apply _ _ _ _ H Hb).
    destruct (execute (drop_call name) s1) as [[e|answer] s2] eqn:Hd;
      repeat split; try reflexivity; congruence.
  - rewrite (keyspace_delete_missing _ _ _ _ _ H Hb).
    repeat split; try reflexivity; intros; congruence.
Qed.

(** C7. The CREATE statement of [keyspace_create].  The calls of a run
    are, in order: the metadata query; then, with check mode off, either
    the metadata query again (keyspace found) or the CREATE followed,
    when it does not raise, by the metadata query.  The CREATE is the
    call with no bound parameters whose text is the specification's
    form with the values substituted: the [replication_factor] form when
    [topology] is [SimpleStrategy], the datacenter form otherwise (in
    particular for [NetworkTopologyStrategy]); the replication factor
    appears in decimal and the durable-writes flag as [True] or
    [False].  No other mutating statement is issued. *)
Theorem create_statement_text cm name topology datacenter rf dw s :
  let statement :=
    Execute
      (if String.eqb topology "SimpleStrategy" then
         "CREATE KEYSPACE " +:+ name +:+ " WITH REPLICATION = { 'class' : '"
           +:+ topology +:+ "', 'replication_factor' : '" +:+ pretty rf
           +:+ "' } AND DURABLE_WRITES = " +:+ (if dw then "True" else "False")
           +:+ ";"
       else
         "CREATE KEYSPACE " +:+ name +:+ " WITH REPLICATION = { 'class' : '"
           +:+ topology +:+ "', '" +:+ datacenter +:+ "' : '" +:+ pretty rf
           +:+ "' } AND DURABLE_WRITES = " +:+ (if dw then "True" else "False")
           +:+ ";")
      None in
  let select := Execute GET_KEYSPACE (Some [PyStr name]) in
  let r := keyspace_create cm name topology datacenter rf dw s in
  calls (trace r)
  = match execute select s with
    | (inl _, _) => [select]
    | (inr rows, s1) =>
        if cm then [select]
        else if py_bool (head rows) then [select; select]
        else match execute statement s1 with
             | (inl _, _) => [select; statement]
             | (inr _, _) => [select; statement; select]
             end
    end
  ∧ Forall (λ c, c = statement) (mutations (trace r)).
Proof.
  cbv zeta.
  change (Execute GET_KEYSPACE (Some [PyStr name])) with (get_call name).
  match goal with
  | |- context [execute ?c _] =>
      lazymatch c with
      | Execute _ None =>
          change c with (create_call name topology datacenter rf dw)
      end
  end.
  split.
  - destruct (execute (get_call name) s) as [[e|rows] s1] eqn:H.
    { rewrite (keyspace_create_query_fails _ _ _ _ _ _ _ _ _ H). reflexivity. }
    destruct (py_bool (head rows)) eqn:Hb; destruct cm.
    + rewrite (keyspace_create_found_check _ _ _ _ _ _ _ _ H Hb). reflexivity.
    + rewrite (keyspace_create_found_apply _ _ _ _ _ _ _ _ H Hb).
      unfold extend, calls. cbn [trace]. rewrite fmap_app.
      fold (calls (trace (compare_from (head rows) name s1))).
      rewrite compare_from_calls. reflexivity.
    + rewrite (keyspace_create_missing_check _ _ _ _ _ _ _ _ H Hb). reflexivity.
    + rewrite (keyspace_create_missing_apply _ _ _ _ _ _ _ _ H Hb).
      destruct (execute (create_call _ _ _ _ _) s1) as [[e|answer] s2];
        [reflexivity|].
      unfold extend, calls. cbn [trace]. rewrite fmap_app.
      fold (calls (trace (compare_from (head rows) name s2))).
      rewrite compare_from_calls. reflexivity.
  - change (Forall (λ c, c = create_call name topology datacenter rf dw)
              (mutations (trace (keyspace_create cm name topology datacenter rf dw s)))).
    destruct (keyspace_create_mutations cm name topology datacenter rf dw s)
      as [-> | ->]; repeat constructor.
Qed.


(** C9. Nothing is retried and every error is terminal.  If a call to
    the session raises, the run of [keyspace_create] or
    [keyspace_delete] ends there with that very exception: the failing
    call is the last one in the log and every earlier call succeeded;
    a run that returns has seen no exception.  A run attempts at most
    one mutating statement.  [main] turns the exception into the
    failure result whose message is [str(e)], and a returned value
    into the [changed] field of the result. *)
Theorem errors_are_terminal cm name topology datacenter rf dw s :
  let rc := keyspace_create cm name topology datacenter rf dw s in
  let rd := keyspace_delete cm name s in
  (fail_stop rc ∧ (length (mutations (trace rc)) ≤ 1)%nat)
  ∧ (fail_stop rd ∧ (length (mutations (trace rd)) ≤ 1)%nat)
  ∧ (main true (inr s) cm (Params name topology datacenter rf dw "present")).1
    = match outcome rc with
      | inl e => fail_json (str_exc e)
      | inr changed => exit_json changed name
      end
  ∧ (main true (inr s) cm (Params name topology datacenter rf dw "absent")).1
    = match outcome rd with
      | inl e => fail_json (str_exc e)
      | inr changed => exit_json changed name
      end.
Proof.
  cbv zeta. repeat split.
  - apply keyspace_create_fail_stop.
  - destruct (keyspace_create_mutations cm name topology datacenter rf dw s)
      as [-> | ->]; cbn [length]; lia.
  - apply keyspace_delete_fail_stop.
  - destruct (keyspace_delete_mutations cm name s) as [-> | ->]; cbn [length]; lia.
  - unfold main. cbn. destruct (outcome _); reflexivity.
  - unfold main. cbn. destruct (outcome _); reflexivity.
Qed.

Lemma py_ne_refl (a : option (gmap string Cell)) : py_ne a a = false.
Proof. unfold py_ne. rewrite bool_decide_eq_true_2; reflexivity. Qed.

Lemma py_ne_bool (a b : option (gmap string Cell)) :
  py_bool a = true → py_bool b = false → py_ne a b = true.
Proof.
  intros Ha Hb. unfold py_ne.
  rewrite bool_decide_eq_false_2; [reflexivity|]. intros ->. congruence.
Qed.

Lemma keyspace_create_found_stable name topology datacenter rf dw s rows s1 s2 :
  execute (get_call name) s = (inr rows, s1) →
  py_bool (head rows) = true →
  execute (get_call name) s1 = (inr rows, s2) →
  keyspace_create false name topology datacenter rf dw s
  = Run (inr false) s2 [(get_call name, inr rows); (get_call name, inr rows)].
Proof.
  intros H1 Hb H2.
  rewrite (keyspace_create_found_apply _ _ _ _ _ _ _ _ H1 Hb).
  unfold compare_from. rewrite H2, py_ne_refl. reflexivity.
Qed.

Lemma keyspace_create_found_mutations cm name topology datacenter rf dw s rows s1 :
  execute (get_call name) s = (inr rows, s1) →
  py_bool (head rows) = true →
  mutations (trace (keyspace_create cm name topology datacenter rf dw s)) = [].
Proof.
  intros H1 Hb. destruct cm.
  - rewrite (keyspace_create_found_check _ _ _ _ _ _ _ _ H1 Hb). reflexivity.
  - rewrite (keyspace_create_found_apply _ _ _ _ _ _ _ _ H1 Hb).
    rewrite mutations_extend, mutations_compare_from. reflexivity.
Qed.



(** C5. Idempotence.  For a keyspace the metadata does not list, a
    first [keyspace_create] with check mode off (its CREATE succeeding
    and the keyspace being listed afterwards) returns [True]; the same
    call repeated at once on the resulting session issues no CREATE or
    DROP and returns [False]. *)
Theorem keyspace_create_idempotent name topology datacenter rf dw
    s s1 answer s2 rows :
  execute (get_call name) s = (inr [], s1) →
  execute (create_call name topology datacenter rf dw) s1 = (inr answer, s2) →
  execute (get_call name) s2 = (inr rows, s2) →
  py_bool (head rows) = true →
  let first := keyspace_create false name topology datacenter rf dw s in
  let second := keyspace_create false name topology datacenter rf dw (final first) in
  outcome first = inr true
  ∧ mutations (trace first) = [create_call name topology datacenter rf dw]
  ∧ outcome second = inr false
  ∧ mutations (trace second) = [].
Proof.
  intros H1 H2 H3 Hb. cbv zeta.
  assert (Hfirst : keyspace_create false name topology datacenter rf dw s
                   = Run (inr true) s2
                       [(get_call name, inr []);
                        (create_call name topology datacenter rf dw, inr answer);
                        (get_call name, inr rows)]).
  { rewrite (keyspace_create_missing_apply _ _ _ _ _ _ _ _ H1 eq_refl).
    rewrite H2. unfold compare_from. rewrite H3.
    rewrite (py_ne_bool (head rows) (head []) Hb eq_refl). reflexivity. }
  rewrite Hfirst. cbn [outcome final trace].
  rewrite (keyspace_create_found_stable _ _ _ _ _ _ _ _ _ H3 Hb H3).
  repeat split.
  unfold mutations, calls. cbn [fmap list_fmap fst List.filter].
  rewrite mutating_get_call, mutating_create_call. reflexivity.
Qed.

Lemma mutations_query_then_create name topology datacenter rf dw
    (a1 a2 : exn + list (gmap string Cell)) :
  mutations [(get_call name, a1); (create_call name topology datacenter rf dw, a2)]
  = [create_call name topology datacenter rf dw].
Proof.
  unfold mutations, calls. cbn [fmap list_fmap fst List.filter].
  rewrite mutating_get_call, mutating_create_call. reflexivity.
Qed.

(** [keyspace_delete]: on every session the value returned is [True]
    exactly when a DROP is issued in the run or would be in the run
    with check mode off. *)
Lemma keyspace_delete_changed_iff cm name s changed :
  outcome (keyspace_delete cm name s) = inr changed →
  (changed = true ↔
   mutations (trace (keyspace_delete cm name s)) ≠ []
   ∨ mutations (trace (keyspace_delete false name s)) ≠ []).
Proof.
  destruct (execute (get_call name) s) as [[e|rows] s1] eqn:H.
  { rewrite (keyspace_delete_query_fails _ _ _ _ _ H). intros Hc. discriminate Hc. }
  destruct (py_bool (head rows)) eqn:Hb.
  - intros Hc.
    rewrite (keyspace_delete_found_apply _ _ _ _ H Hb).
    assert (changed = true) as ->.
    { destruct cm.
      - rewrite (keyspace_delete_found_check _ _ _ _ H Hb) in Hc.
        cbn in Hc. congruence.
      - rewrite (keyspace_delete_found_apply _ _ _ _ H Hb) in Hc.
        destruct (execute (drop_call name) s1) as [[e|answer] s2];
          cbn in Hc; congruence. }
    split; [|reflexivity]. intros _. right.
    destruct (execute (drop_call name) s1) as [[e|answer] s2]; discriminate.
  - rewrite !(keyspace_delete_missing _ _ _ _ _ H Hb). intros Hc.
    cbn in Hc. injection Hc as <-.
    split; [discriminate|]. intros [[]|[]]; reflexivity.
Qed.

(** [keyspace_create] in check mode, on every session. *)
Lemma keyspace_create_check_changed_iff name topology datacenter rf dw s :
  changed_means_mutation true name topology datacenter rf dw s.
Proof.
  unfold changed_means_mutation.
  destruct (execute (get_call name) s) as [[e|rows] s1] eqn:H.
  { rewrite (keyspace_create_query_fails _ _ _ _ _ _ _ _ _ H).
    intros changed Hc. discriminate Hc. }
  destruct (py_bool (head rows)) eqn:Hb; intros changed Hc.
  - rewrite !(keyspace_create_found_mutations _ _ _ _ _ _ _ _ _ H Hb).
    rewrite (keyspace_create_found_check _ _ _ _ _ _ _ _ H Hb) in Hc.
    cbn in Hc. injection Hc as <-.
    split; [discriminate|]. intros [[]|[]]; reflexivity.
  - rewrite (keyspace_create_missing_check _ _ _ _ _ _ _ _ H Hb) in Hc.
    cbn in Hc. injection Hc as <-.
    split; [|reflexivity]. intros _. right.
    rewrite (keyspace_create_missing_apply _ _ _ _ _ _ _ _ H Hb).
    destruct (execute (create_call _ _ _ _ _) s1) as [[e|answer] s2].
    + cbn [trace]. rewrite mutations_query_then_create. discriminate.
    + rewrite mutations_extend, mutations_query_then_create. discriminate.
Qed.

(** [keyspace_create] with check mode off, on a session whose metadata
    query leaves the state unchanged and on which a successful CREATE
    makes the keyspace listed. *)
Lemma keyspace_create_apply_changed_iff name topology datacenter rf dw s :
  (execute (get_call name) s).2 = s →
  (∀ answer s2 rows s3,
     execute (create_call name topology datacenter rf dw) s = (inr answer, s2) →
     execute (get_call name) s2 = (inr rows, s3) →
     py_bool (head rows) = true) →
  changed_means_mutation false name topology datacenter rf dw s.
Proof.
  intros Hro Heff. unfold changed_means_mutation.
  destruct (execute (get_call name) s) as [[e|rows] s1] eqn:H.
  { rewrite (keyspace_create_query_fails _ _ _ _ _ _ _ _ _ H).
    intros changed Hc. discriminate Hc. }
  cbn in Hro. subst s1.
  destruct (py_bool (head rows)) eqn:Hb; intros changed Hc.
  - rewrite !(keyspace_create_found_mutations _ _ _ _ _ _ _ _ _ H Hb).
    rewrite (keyspace_create_found_stable _ _ _ _ _ _ _ _ _ H Hb H) in Hc.
    cbn in Hc. injection Hc as <-.
    split; [discriminate|]. intros [[]|[]]; reflexivity.
  - rewrite (keyspace_create_missing_apply _ _ _ _ _ _ _ _ H Hb) in *.
    destruct (execute (create_call _ _ _ _ _) s) as [[e|answer] s2] eqn:Hcr;
      [discriminate Hc|].
    rewrite mutations_extend, mutations_query_then_create.
    unfold compare_from, extend in Hc.
    destruct (execute (get_call name) s2) as [[e|rows2] s3] eqn:H2;
      [discriminate Hc|].
    cbn in Hc. injection Hc as <-.
    rewrite (py_ne_bool _ _ (Heff _ _ _ _ eq_refl H2) Hb).
    split; [|reflexivity]. intros _. left. discriminate.
Qed.

(** C2, as the code has it.  The value returned is [True] exactly when a
    mutating statement (CREATE or DROP) is issued during the call or
    would be issued by the same call run with check mode off from the
    same session state: on every session for [keyspace_delete] in
    either mode and for [keyspace_create] in check mode.  With check
    mode off [keyspace_create] returns the comparison of its two
    metadata reads, and the equivalence holds on a session whose
    metadata query leaves the state unchanged and on which a successful
    CREATE makes the keyspace listed (the next metadata query answers a
    true row). *)
Theorem changed_iff_mutation cm name topology datacenter rf dw s :
  (∀ changed,
     outcome (keyspace_delete cm name s) = inr changed →
     (changed = true ↔
      mutations (trace (keyspace_delete cm name s)) ≠ []
      ∨ mutations (trace (keyspace_delete false name s)) ≠ []))
  ∧ changed_means_mutation true name topology datacenter rf dw s
  ∧ ((execute (get_call name) s).2 = s →
     (∀ answer s2 rows s3,
        execute (create_call name topology datacenter rf dw) s = (inr answer, s2) →
        execute (get_call name) s2 = (inr rows, s3) →
        py_bool (head rows) = true) →
     changed_means_mutation false name topology datacenter rf dw s).
Proof.
  split; [|split].
  - intros changed. apply keyspace_delete_changed_iff.
  - apply keyspace_create_check_changed_iff.
  - apply keyspace_create_apply_changed_iff.
Qed.


End Properties.

(** ** Further properties of the reconciler *)

Lemma append_assoc (a b c : string) : (a +:+ b) +:+ c = a +:+ (b +:+ c).
Proof.
  induction a as [|x a IH]; [reflexivity|].
  change (String x ((a +:+ b) +:+ c) = String x (a +:+ (b +:+ c))).
  f_equal. exact IH.
Qed.

(** A string with the character [q] in it has [q] among its characters. *)
Lemma append_char_in (q : ascii) (a r : string) :
  In q (list_ascii_of_string (a +:+ String q r)).
Proof.
  induction a as [|x a IH]; [left; reflexivity|].
  change (In q (x :: list_ascii_of_string (a +:+ String q r))).
  right. exact IH.
Qed.

(** No string with a single quote in it is the name [SimpleStrategy]. *)
Lemma quoted_is_not_simple (a r : string) :
  String.eqb (a +:+ String "'"%char r) "SimpleStrategy" = false.
Proof.
  apply String.eqb_neq. intros Heq.
  pose proof (append_char_in "'"%char a r) as Hin. rewrite Heq in Hin.
  cbn in Hin. intuition discriminate.
Qed.

Section Further.
Context {Cell : Type} `{!EqDecision Cell}.
Context {S : Type} `{!Session Cell S}.

Implicit Types (s : S) (name topology datacenter : string) (rf : Z)
  (dw cm : bool) (rows : list (gmap string Cell)).

(** The parameters other than [name] reach the session through the
    CREATE statement only. *)
Lemma keyspace_create_same_call cm name topology datacenter rf dw
    topology' datacenter' rf' dw' s :
  create_call name topology datacenter rf dw
  = create_call name topology' datacenter' rf' dw' →
  keyspace_create cm name topology datacenter rf dw s
  = keyspace_create cm name topology' datacenter' rf' dw' s.
Proof.
  intros Hcall.
  destruct (execute (get_call name) s) as [[e|rows] s1] eqn:H.
  { rewrite !(keyspace_create_query_fails _ _ _ _ _ _ _ _ _ H). reflexivity. }
  destruct (py_bool (head rows)) eqn:Hb; destruct cm.
  - rewrite !(keyspace_create_found_check _ _ _ _ _ _ _ _ H Hb). reflexivity.
  - rewrite !(keyspace_create_found_apply _ _ _ _ _ _ _ _ H Hb). reflexivity.
  - rewrite !(keyspace_create_missing_check _ _ _ _ _ _ _ _ H Hb). reflexivity.
  - rewrite !(keyspace_create_missing_apply _ _ _ _ _ _ _ _ H Hb).
    rewrite Hcall. reflexivity.
Qed.

Lemma is_drop_create_call name topology datacenter rf dw :
  is_drop (create_call name topology datacenter rf dw) = false.
Proof.
  unfold is_drop, create_call, create_cql. cbn [query].
  destruct (String.eqb topology "SimpleStrategy"); reflexivity.
Qed.

(** The calls of a run of [keyspace_create], in order. *)
Lemma keyspace_create_calls cm name topology datacenter rf dw s :
  let q := get_call name in
  let c := create_call name topology datacenter rf dw in
  let l := calls (trace (keyspace_create cm name topology datacenter rf dw s)) in
  l = [q] ∨ l = [q; q] ∨ l = [q; c] ∨ l = [q; c; q].
Proof.
  cbv zeta.
  destruct (execute (get_call name) s) as [[e|rows] s1] eqn:H.
  { rewrite (keyspace_create_query_fails _ _ _ _ _ _ _ _ _ H). left. reflexivity. }
  destruct (py_bool (head rows)) eqn:Hb; destruct cm.
  - rewrite (keyspace_create_found_check _ _ _ _ _ _ _ _ H Hb). left. reflexivity.
  - rewrite (keyspace_create_found_apply _ _ _ _ _ _ _ _ H Hb).
    right. left. unfold extend, calls. cbn [trace]. rewrite fmap_app.
    fold (calls (trace (compare_from (head rows) name s1))).
    rewrite compare_from_calls. reflexivity.
  - rewrite (keyspace_create_missing_check _ _ _ _ _ _ _ _ H Hb). left. reflexivity.
  - rewrite (keyspace_create_missing_apply _ _ _ _ _ _ _ _ H Hb).
    destruct (execute (create_call _ _ _ _ _) s1) as [[e|answer] s2].
    + right. right. left. reflexivity.
    + right. right. right. unfold extend, calls. cbn [trace]. rewrite fmap_app.
      fold (calls (trace (compare_from (head rows) name s2))).
      rewrite compare_from_calls. reflexivity.
Qed.

(** The calls of a run of [keyspace_delete], in order. *)
Lemma keyspace_delete_calls cm name s :
  let l := calls (trace (keyspace_delete cm name s)) in
  l = [get_call name] ∨ l = [get_call name; drop_call name].
Proof.
  cbv zeta.
  destruct (execute (get_call name) s) as [[e|rows] s1] eqn:H.
  { rewrite (keyspace_delete_query_fails _ _ _ _ _ H). left. reflexivity. }
  destruct (py_bool (head rows)) eqn:Hb; [destruct cm|].
  - rewrite (keyspace_delete_found_check _ _ _ _ H Hb). left. reflexivity.
  - rewrite (keyspace_delete_found_apply _ _ _ _ H Hb). right.
    destruct (execute (drop_call name) s1) as [[e|answer] s2]; reflexivity.
  - rewrite (keyspace_delete_missing _ _ _ _ _ H Hb). left. reflexivity.
Qed.

(** X1. Drift is never looked at: once the metadata query finds the
    keyspace (its first row is true), the whole run of
    [keyspace_create], that is its result, the calls it makes and the
    state it leaves, is the same for every topology, datacenter,
    replication factor and durable-writes flag. *)
Theorem existing_keyspace_settings_ignored cm name s rows s1
    topology datacenter rf dw topology' datacenter' rf' dw' :
  execute (get_call name) s = (inr rows, s1) →
  py_bool (head rows) = true →
  keyspace_create cm name topology datacenter rf dw s
  = keyspace_create cm name topology' datacenter' rf' dw' s.
Proof.
  intros H Hb. destruct cm.
  - rewrite !(keyspace_create_found_check _ _ _ _ _ _ _ _ H Hb). reflexivity.
  - rewrite !(keyspace_create_found_apply _ _ _ _ _ _ _ _ H Hb). reflexivity.
Qed.

(** X2. With topology [SimpleStrategy] the datacenter parameter has no
    effect at all: on every session the run of [keyspace_create] is the
    same whatever datacenter is passed. *)
Theorem simple_strategy_ignores_datacenter cm name datacenter datacenter' rf dw s :
  keyspace_create cm name "SimpleStrategy" datacenter rf dw s
  = keyspace_create cm name "SimpleStrategy" datacenter' rf dw s.
Proof. apply keyspace_create_same_call. reflexivity. Qed.

(** X3. [keyspace_create] attempts its CREATE exactly when check mode is
    off and the metadata query answered without a true first row; when
    the query raises, when the keyspace is found or in check mode no
    mutating statement is attempted.  No validation of the parameters
    stands in between. *)
Theorem create_attempted_exactly_when cm name topology datacenter rf dw s :
  mutations (trace (keyspace_create cm name topology datacenter rf dw s))
  = match (execute (get_call name) s).1 with
    | inl _ => []
    | inr rows =>
        if negb cm && negb (py_bool (head rows))
        then [create_call name topology datacenter rf dw]
        else []
    end.
Proof.
  destruct (execute (get_call name) s) as [[e|rows] s1] eqn:H; cbn [fst].
  { rewrite (keyspace_create_query_fails _ _ _ _ _ _ _ _ _ H). reflexivity. }
  destruct (py_bool (head rows)) eqn:Hb.
  - rewrite (keyspace_create_found_mutations _ _ _ _ _ _ _ _ _ H Hb).
    destruct cm; reflexivity.
  - destruct cm; cbn [negb andb].
    + rewrite (keyspace_create_missing_check _ _ _ _ _ _ _ _ H Hb). reflexivity.
    + rewrite (keyspace_create_missing_apply _ _ _ _ _ _ _ _ H Hb).
      destruct (execute (create_call _ _ _ _ _) s1) as [[e|answer] s2].
      * cbn [trace]. apply mutations_query_then_create.
      * rewrite mutations_extend, mutations_compare_from.
        rewrite mutations_query_then_create. reflexivity.
Qed.

(** X4. The calls of one run.  [keyspace_create] starts with the
    metadata query, makes at most three calls, each of them that query
    or its CREATE, and never a DROP.  [keyspace_delete] starts with the
    metadata query, makes at most two calls, each of them that query or
    its DROP, and never a CREATE. *)
Theorem call_inventory cm name topology datacenter rf dw s :
  let lc := calls (trace (keyspace_create cm name topology datacenter rf dw s)) in
  let ld := calls (trace (keyspace_delete cm name s)) in
  (head lc = Some (get_call name) ∧ (length lc ≤ 3)%nat
   ∧ Forall (λ c, c = get_call name
                  ∨ c = create_call name topology datacenter rf dw) lc
   ∧ Forall (λ c, is_drop c = false) lc)
  ∧ (head ld = Some (get_call name) ∧ (length ld ≤ 2)%nat
     ∧ Forall (λ c, c = get_call name ∨ c = drop_call name) ld
     ∧ Forall (λ c, is_create c = false) ld).
Proof.
  cbv zeta. pose proof (is_drop_create_call name topology datacenter rf dw) as Hd.
  split.
  - destruct (keyspace_create_calls cm name topology datacenter rf dw s)
      as [-> | [-> | [-> | ->]]];
      (split; [reflexivity|]); (split; [cbn [length]; lia|]);
      split; repeat (first [apply List.Forall_nil | apply List.Forall_cons]);
      first [left; reflexivity | right; reflexivity | exact Hd | reflexivity].
  - destruct (keyspace_delete_calls cm name s) as [-> | ->];
      (split; [reflexivity|]); (split; [cbn [length]; lia|]);
      split; repeat (first [apply List.Forall_nil | apply List.Forall_cons]);
      first [left; reflexivity | right; reflexivity | reflexivity].
Qed.

(** X5. Check mode sees what the real run sees first: on every session
    the log of a run in check mode is an initial part of the log of the
    same call with check mode off, for both functions. *)
Theorem check_mode_log_is_prefix name topology datacenter rf dw s :
  trace (keyspace_create true name topology datacenter rf dw s)
    `prefix_of` trace (keyspace_create false name topology datacenter rf dw s)
  ∧ trace (keyspace_delete true name s)
      `prefix_of` trace (keyspace_delete false name s).
Proof.
  destruct (execute (get_call name) s) as [[e|rows] s1] eqn:H.
  { rewrite !(keyspace_create_query_fails _ _ _ _ _ _ _ _ _ H).
    rewrite !(keyspace_delete_query_fails _ _ _ _ _ H). split; reflexivity. }
  destruct (py_bool (head rows)) eqn:Hb.
  - rewrite (keyspace_create_found_check _ _ _ _ _ _ _ _ H Hb).
    rewrite (keyspace_create_found_apply _ _ _ _ _ _ _ _ H Hb).
    rewrite (keyspace_delete_found_check _ _ _ _ H Hb).
    rewrite (keyspace_delete_found_apply _ _ _ _ H Hb).
    split.
    + eexists. reflexivity.
    + destruct (execute (drop_call name) s1) as [[e|answer] s2];
        eexists; reflexivity.
  - rewrite (keyspace_create_missing_check _ _ _ _ _ _ _ _ H Hb).
    rewrite (keyspace_create_missing_apply _ _ _ _ _ _ _ _ H Hb).
    rewrite !(keyspace_delete_missing _ _ _ _ _ H Hb).
    split; [|reflexivity].
    destruct (execute (create_call _ _ _ _ _) s1) as [[e|answer] s2];
      eexists; reflexivity.
Qed.

(** X6. Check mode changes the session only as far as the one metadata
    query does: the state a check-mode run leaves is the state that
    query returns.  On a session whose metadata query is read-only a
    check-mode run therefore leaves the state as it found it. *)
Theorem check_mode_final_state name topology datacenter rf dw s :
  final (keyspace_create true name topology datacenter rf dw s)
  = (execute (get_call name) s).2
  ∧ final (keyspace_delete true name s) = (execute (get_call name) s).2.
Proof.
  destruct (execute (get_call name) s) as [[e|rows] s1] eqn:H; cbn [snd].
  { rewrite (keyspace_create_query_fails _ _ _ _ _ _ _ _ _ H).
    rewrite (keyspace_delete_query_fails _ _ _ _ _ H). split; reflexivity. }
  destruct (py_bool (head rows)) eqn:Hb.
  - rewrite (keyspace_create_found_check _ _ _ _ _ _ _ _ H Hb).
    rewrite (keyspace_delete_found_check _ _ _ _ H Hb). split; reflexivity.
  - rewrite (keyspace_create_missing_check _ _ _ _ _ _ _ _ H Hb).
    rewrite (keyspace_delete_missing _ _ _ _ _ H Hb). split; reflexivity.
Qed.

(** X7. Check mode predicts the real run.  For [keyspace_delete], on
    every session: when both runs return, they return the same value.
    For [keyspace_create] the same holds on a session whose metadata
    query leaves the state unchanged and on which a successful CREATE
    makes the keyspace listed. *)
Theorem check_mode_predicts name topology datacenter rf dw s :
  (∀ predicted changed,
     outcome (keyspace_delete true name s) = inr predicted →
     outcome (keyspace_delete false name s) = inr changed →
     predicted = changed)
  ∧ ((execute (get_call name) s).2 = s →
     (∀ answer s2 rows s3,
        execute (create_call name topology datacenter rf dw) s = (inr answer, s2) →
        execute (get_call name) s2 = (inr rows, s3) →
        py_bool (head rows) = true) →
     ∀ predicted changed,
       outcome (keyspace_create true name topology datacenter rf dw s) = inr predicted →
       outcome (keyspace_create false name topology datacenter rf dw s) = inr changed →
       predicted = changed).
Proof.
  split.
  - destruct (execute (get_call name) s) as [[e|rows] s1] eqn:H.
    { rewrite (keyspace_delete_query_fails _ _ _ _ _ H).
      intros predicted changed Hp. discriminate Hp. }
    destruct (py_bool (head rows)) eqn:Hb; intros predicted changed Hp Hc.
    + rewrite (keyspace_delete_found_check _ _ _ _ H Hb) in Hp.
      rewrite (keyspace_delete_found_apply _ _ _ _ H Hb) in Hc.
      destruct (execute (drop_call name) s1) as [[e|answer] s2];
        cbn in Hp, Hc; congruence.
    + rewrite (keyspace_delete_missing true _ _ _ _ H Hb) in Hp.
      rewrite (keyspace_delete_missing false _ _ _ _ H Hb) in Hc.
      cbn in Hp, Hc. congruence.
  - intros Hro Heff.
    destruct (execute (get_call name) s) as [[e|rows] s1] eqn:H.
    { rewrite (keyspace_create_query_fails _ _ _ _ _ _ _ _ _ H).
      intros predicted changed Hp. discriminate Hp. }
    cbn in Hro. subst s1.
    destruct (py_bool (head rows)) eqn:Hb; intros predicted changed Hp Hc.
    + rewrite (keyspace_create_found_check _ _ _ _ _ _ _ _ H Hb) in Hp.
      rewrite (keyspace_create_found_stable _ _ _ _ _ _ _ _ _ H Hb H) in Hc.
      cbn in Hp, Hc. congruence.
    + rewrite (keyspace_create_missing_check _ _ _ _ _ _ _ _ H Hb) in Hp.
      rewrite (keyspace_create_missing_apply _ _ _ _ _ _ _ _ H Hb) in Hc.
      cbn in Hp. injection Hp as <-.
      destruct (execute (create_call _ _ _ _ _) s) as [[e|answer] s2] eqn:Hcr;
        [discriminate Hc|].
      unfold compare_from, extend in Hc.
      destruct (execute (get_call name) s2) as [[e|rows2] s3] eqn:H2;
        [discriminate Hc|].
      cbn in Hc. injection Hc as <-.
      symmetry. apply py_ne_bool; [|exact Hb].
      exact (Heff _ _ _ _ eq_refl H2).
Qed.

(** X8. [keyspace_delete] is idempotent.  For a listed keyspace, a first
    call with check mode off whose DROP succeeds returns [True]; when
    the metadata no longer lists the keyspace, the same call repeated on
    the resulting session returns [False] and issues no DROP. *)
Theorem keyspace_delete_idempotent name s rows s1 answer s2 rows2 s3 :
  execute (get_call name) s = (inr rows, s1) →
  py_bool (head rows) = true →
  execute (drop_call name) s1 = (inr answer, s2) →
  execute (get_call name) s2 = (inr rows2, s3) →
  py_bool (head rows2) = false →
  let first := keyspace_delete false name s in
  let second := keyspace_delete false name (final first) in
  outcome first = inr true
  ∧ mutations (trace first) = [drop_call name]
  ∧ outcome second = inr false
  ∧ mutations (trace second) = [].
Proof.
  intros H1 Hb H2 H3 Hb2. cbv zeta.
  rewrite (keyspace_delete_found_apply _ _ _ _ H1 Hb), H2. cbn [outcome final trace].
  rewrite (keyspace_delete_missing _ _ _ _ _ H3 Hb2).
  repeat split.
Qed.

(** X9. Create, then delete.  For a keyspace the metadata does not list,
    [keyspace_create] with check mode off followed at once by
    [keyspace_delete] on the resulting session returns [True] both
    times, attempts one CREATE and then one DROP, and ends in the state
    the DROP leaves; this given that the CREATE and the DROP succeed and
    that the created keyspace is listed by a read-only metadata query. *)
Theorem create_then_delete name topology datacenter rf dw
    s rows0 s1 answer s2 rows answer' s3 :
  execute (get_call name) s = (inr rows0, s1) →
  py_bool (head rows0) = false →
  execute (create_call name topology datacenter rf dw) s1 = (inr answer, s2) →
  execute (get_call name) s2 = (inr rows, s2) →
  py_bool (head rows) = true →
  execute (drop_call name) s2 = (inr answer', s3) →
  let created := keyspace_create false name topology datacenter rf dw s in
  let deleted := keyspace_delete false name (final created) in
  outcome created = inr true
  ∧ mutations (trace created) = [create_call name topology datacenter rf dw]
  ∧ outcome deleted = inr true
  ∧ mutations (trace deleted) = [drop_call name]
  ∧ final deleted = s3.
Proof.
  intros H1 Hb0 H2 H3 Hb H4. cbv zeta.
  assert (Hcreated : keyspace_create false name topology datacenter rf dw s
                     = Run (inr true) s2
                         [(get_call name, inr rows0);
                          (create_call name topology datacenter rf dw, inr answer);
                          (get_call name, inr rows)]).
  { rewrite (keyspace_create_missing_apply _ _ _ _ _ _ _ _ H1 Hb0).
    rewrite H2. unfold compare_from. rewrite H3.
    rewrite (py_ne_bool _ _ Hb Hb0). reflexivity. }
  rewrite Hcreated. cbn [outcome final trace].
  rewrite (keyspace_delete_found_apply _ _ _ _ H3 Hb), H4. cbn [outcome final trace].
  repeat split.
  unfold mutations, calls. cbn [fmap list_fmap fst List.filter].
  rewrite mutating_get_call, mutating_create_call. reflexivity.
Qed.

(** X10. With check mode off and the keyspace found, the value returned
    by [keyspace_create] says whether the two metadata reads differ in
    their first row, and nothing else: it is [True] exactly when they
    differ, so a change made by someone else between the two reads is
    reported as [changed] although the run issues no CREATE or DROP. *)
Theorem present_result_compares_reads name topology datacenter rf dw
    s rows s1 rows2 s2 :
  execute (get_call name) s = (inr rows, s1) →
  py_bool (head rows) = true →
  execute (get_call name) s1 = (inr rows2, s2) →
  let r := keyspace_create false name topology datacenter rf dw s in
  (∃ changed, outcome r = inr changed ∧ (changed = true ↔ head rows2 ≠ head rows))
  ∧ mutations (trace r) = [].
Proof.
  intros H1 Hb H2. cbv zeta.
  rewrite (keyspace_create_found_mutations _ _ _ _ _ _ _ _ _ H1 Hb).
  split; [|reflexivity].
  rewrite (keyspace_create_found_apply _ _ _ _ _ _ _ _ H1 Hb).
  unfold compare_from. rewrite H2. cbn [extend outcome].
  eexists. split; [reflexivity|].
  unfold py_ne. rewrite negb_true_iff, bool_decide_eq_false. reflexivity.
Qed.

(** X11. [main] calls the session only when the driver was found, the
    connection was made and [state] is [present] or [absent]; in every
    other case it makes no call at all, and when it does call, its first
    call is the metadata query for the keyspace name. *)
Theorem main_calls_session_iff dep_found (connected : exn + S) cm
    (params : module_params) :
  let log := (main dep_found connected cm params).2 in
  (log ≠ [] ↔
   dep_found = true ∧ (∃ s, connected = inr s)
   ∧ (p_state params = "present" ∨ p_state params = "absent"))
  ∧ (log = [] ∨ head (calls log) = Some (get_call (p_name params))).
Proof.
  cbv zeta. unfold main.
  destruct dep_found; cbn [negb].
  2:{ split; [|left; reflexivity].
      split; [intros Hne; contradiction Hne; reflexivity|].
      intros (Hd & _). discriminate Hd. }
  destruct connected as [e|session].
  { split; [|left; reflexivity].
    split; [intros Hne; contradiction Hne; reflexivity|].
    intros (_ & (s0 & Hs) & _). discriminate Hs. }
  destruct (String.eqb (p_state params) "present") eqn:Ep.
  { apply String.eqb_eq in Ep.
    pose proof (call_head := keyspace_create_calls cm (p_name params) (p_topology params)
                  (p_datacenter params) (p_replication_factor params)
                  (p_durable_writes params) session).
    cbv zeta in call_head.
    assert (Hhead : head (calls (trace (keyspace_create cm (p_name params)
                     (p_topology params) (p_datacenter params)
                     (p_replication_factor params) (p_durable_writes params) session)))
                    = Some (get_call (p_name params)))
      by (destruct call_head as [-> | [-> | [-> | ->]]]; reflexivity).
    cbv zeta.
    destruct (outcome _) eqn:Ho; cbn [snd];
      (split; [|right; exact Hhead]);
      (split; [intros _; split; [reflexivity|]; split; [eexists; reflexivity|left; exact Ep]|]);
      intros _ Hnil; rewrite Hnil in Hhead; discriminate Hhead. }
  destruct (String.eqb (p_state params) "absent") eqn:Ea.
  { apply String.eqb_eq in Ea.
    pose proof (call_head := keyspace_delete_calls cm (p_name params) session).
    cbv zeta in call_head.
    assert (Hhead : head (calls (trace (keyspace_delete cm (p_name params) session)))
                    = Some (get_call (p_name params)))
      by (destruct call_head as [-> | ->]; reflexivity).
    cbv zeta.
    destruct (outcome _) eqn:Ho; cbn [snd];
      (split; [|right; exact Hhead]);
      (split; [intros _; split; [reflexivity|]; split; [eexists; reflexivity|right; exact Ea]|]);
      intros _ Hnil; rewrite Hnil in Hhead; discriminate Hhead. }
  apply String.eqb_neq in Ep, Ea.
  split; [|left; reflexivity].
  split; [intros Hne; contradiction Hne; reflexivity|].
  intros (_ & _ & [Hs | Hs]); contradiction.
Qed.

(** X12. Quotes are not escaped.  The topology and the datacenter are
    written into the statement as they are, so a quote inside one of
    them moves the boundary between the two: for a topology [a] other
    than [SimpleStrategy], the parameters (topology [a], datacenter
    [b', 'c]) and (topology [a', 'b], datacenter [c]) give the same run
    of [keyspace_create] on every session, which cannot tell them
    apart. *)
Theorem quotes_not_escaped cm name (a b c : string) rf dw s :
  a ≠ "SimpleStrategy" →
  keyspace_create cm name a (b +:+ "', '" +:+ c) rf dw s
  = keyspace_create cm name (a +:+ "', '" +:+ b) c rf dw s.
Proof.
  intros Ha. apply keyspace_create_same_call.
  unfold create_call, create_cql.
  apply String.eqb_neq in Ha. rewrite Ha.
  change (a +:+ "', '" +:+ b) with (a +:+ String "'"%char (", '" +:+ b)).
  rewrite quoted_is_not_simple.
  change (a +:+ String "'"%char (", '" +:+ b)) with (a +:+ "', '" +:+ b).
  f_equal. f_equal. f_equal. f_equal.
  rewrite !append_assoc. reflexivity.
Qed.

End Further.

(** ** The scenarios of the specification, run in memory *)

Import MemorySession ScriptedSession.

(** Scenario A: [foo] absent, simple strategy. *)
Example scenario_A :
  let r := keyspace_create false "foo" "SimpleStrategy" "datacenter1" 1 true (∅ : cluster) in
  outcome r = inr true
  ∧ mutations (trace r)
    = [Execute "CREATE KEYSPACE foo WITH REPLICATION = { 'class' : 'SimpleStrategy', 'replication_factor' : '1' } AND DURABLE_WRITES = True;" None].
Proof. cbv zeta. split; reflexivity. Qed.

(** Scenario B: the same call again, on the session scenario A left. *)
Example scenario_B :
  let r := keyspace_create false "foo" "SimpleStrategy" "datacenter1" 1 true (∅ : cluster) in
  let r' := keyspace_create false "foo" "SimpleStrategy" "datacenter1" 1 true (final r) in
  outcome r' = inr false ∧ mutations (trace r') = [].
Proof. cbv zeta. split; reflexivity. Qed.

(** Scenario C: network topology with datacenter [dc1] and factor 3. *)
Example scenario_C :
  let r := keyspace_create false "foo" "NetworkTopologyStrategy" "dc1" 3 true (∅ : cluster) in
  outcome r = inr true
  ∧ mutations (trace r)
    = [Execute "CREATE KEYSPACE foo WITH REPLICATION = { 'class' : 'NetworkTopologyStrategy', 'dc1' : '3' } AND DURABLE_WRITES = True;" None].
Proof. cbv zeta. split; reflexivity. Qed.

(** Scenario D: [foo] present, removed. *)
Example scenario_D :
  let r := keyspace_delete false "foo" ({[ "foo" := metadata_row "foo" ]} : cluster) in
  outcome r = inr true
  ∧ calls (trace r) = [get_call "foo"; Execute "DROP KEYSPACE %s" (Some [PyStr "foo"])]
  ∧ final r = ∅.
Proof. cbv zeta. repeat split; reflexivity. Qed.


(** ** The theorems at concrete sessions *)


Lemma keyspace_delete_spec_witness :
  keyspace_delete false "foo" foo_cluster
  = Run (inr true) ∅ [(get_call "foo", inr [metadata_row "foo"]); (drop_call "foo", inr [])].
Proof.
  refine (proj2 (proj2 (proj2 (proj2
    (keyspace_delete_spec false "foo" foo_cluster [metadata_row "foo"] foo_cluster _))))
    _ _ [] ∅ _).
  all: reflexivity.
Defined.



Lemma keyspace_create_idempotent_witness :
  let first := keyspace_create false "foo" "NetworkTopologyStrategy" "dc1" 3 true (∅ : cluster) in
  let second := keyspace_create false "foo" "NetworkTopologyStrategy" "dc1" 3 true (final first) in
  outcome first = inr true ∧ outcome second = inr false.
Proof.
  destruct (keyspace_create_idempotent "foo" "NetworkTopologyStrategy" "dc1" 3 true
              (∅ : cluster) ∅ [] foo_cluster [metadata_row "foo"])
    as (H1 & _ & H2 & _); [reflexivity ..|].
  split; [exact H1|exact H2].
Defined.

(** C2 as stated does not hold on every session.  With check mode off,
    [keyspace_create] returns [True] without issuing any statement when
    the row changes between its two reads, and returns [False] after
    issuing its CREATE when the keyspace is still not listed. *)
Lemma changed_without_mutation :
  ¬ changed_means_mutation false "foo" "SimpleStrategy" "datacenter1" 1 true
      altered_row_script
  ∧ ¬ changed_means_mutation false "foo" "SimpleStrategy" "datacenter1" 1 true
        no_row_unlisted_script.
Proof.
  split; intros Hclaim.
  - destruct (Hclaim true eq_refl) as [Hfwd _].
    destruct (Hfwd eq_refl) as [Hm | Hm]; apply Hm; reflexivity.
  - destruct (Hclaim false eq_refl) as [_ Hbwd].
    assert (Hf : false = true); [|discriminate Hf].
    apply Hbwd. left. intros Hnil.
    assert (Hm : mutations (trace (keyspace_create false "foo" "SimpleStrategy"
                                     "datacenter1" 1 true no_row_unlisted_script))
                 = [create_call "foo" "SimpleStrategy" "datacenter1" 1 true])
      by reflexivity.
    rewrite Hm in Hnil. discriminate Hnil.
Qed.

Lemma changed_iff_mutation_witness :
  changed_means_mutation false "foo" "SimpleStrategy" "datacenter1" 1 true (∅ : cluster)
  ∧ (mutations (trace (keyspace_create true "foo" "SimpleStrategy" "datacenter1" 1 true
                         (∅ : cluster))) ≠ []
     ∨ mutations (trace (keyspace_create false "foo" "SimpleStrategy" "datacenter1" 1 true
                           (∅ : cluster))) ≠ []).
Proof.
  destruct (changed_iff_mutation true "foo" "SimpleStrategy" "datacenter1" 1 true
              (∅ : cluster)) as (_ & Hcheck & Happly).
  split.
  - apply Happly.
    + reflexivity.
    + intros answer s2 rows s3 Hcr Hq.
      assert (E1 : execute (create_call "foo" "SimpleStrategy" "datacenter1" 1 true)
                     (∅ : cluster) = (inr [], foo_cluster)) by reflexivity.
      rewrite E1 in Hcr. injection Hcr as <- <-.
      assert (E2 : execute (get_call "foo") foo_cluster
                   = (inr [metadata_row "foo"], foo_cluster)) by reflexivity.
      rewrite E2 in Hq. injection Hq as <- <-.
      reflexivity.
  - destruct (Hcheck true eq_refl) as [Hfwd _]. exact (Hfwd eq_refl).
Defined.



(** ** The further properties at concrete sessions *)

Lemma existing_keyspace_settings_ignored_witness :
  keyspace_create false "foo" "SimpleStrategy" "datacenter1" 1 true foo_cluster
  = keyspace_create false "foo" "NetworkTopologyStrategy" "dc9" 5 false foo_cluster.
Proof.
  apply (existing_keyspace_settings_ignored false "foo" foo_cluster
           [metadata_row "foo"] foo_cluster); reflexivity.
Defined.

Lemma check_mode_predicts_witness :
  ∃ b, outcome (keyspace_create true "foo" "SimpleStrategy" "datacenter1" 1 true
                  (∅ : cluster)) = inr b
       ∧ outcome (keyspace_create false "foo" "SimpleStrategy" "datacenter1" 1 true
                    (∅ : cluster)) = inr b.
Proof.
  destruct (check_mode_predicts "foo" "SimpleStrategy" "datacenter1" 1 true
              (∅ : cluster)) as [_ Hc].
  assert (Hro : (execute (get_call "foo") (∅ : cluster)).2 = ∅) by reflexivity.
  assert (Heff : ∀ answer s2 rows s3,
            execute (create_call "foo" "SimpleStrategy" "datacenter1" 1 true)
              (∅ : cluster) = (inr answer, s2) →
            execute (get_call "foo") s2 = (inr rows, s3) →
            py_bool (head rows) = true).
  { intros answer s2 rows s3 Hcr Hq.
    assert (E1 : execute (create_call "foo" "SimpleStrategy" "datacenter1" 1 true)
                   (∅ : cluster) = (inr [], foo_cluster)) by reflexivity.
    rewrite E1 in Hcr. injection Hcr as <- <-.
    assert (E2 : execute (get_call "foo") foo_cluster
                 = (inr [metadata_row "foo"], foo_cluster)) by reflexivity.
    rewrite E2 in Hq. injection Hq as <- <-.
    reflexivity. }
  assert (Hreal : ∃ changed,
            outcome (keyspace_create false "foo" "SimpleStrategy" "datacenter1" 1 true
                       (∅ : cluster)) = inr changed)
    by (exists true; reflexivity).
  destruct Hreal as [changed Hreal]. exists changed. split; [|exact Hreal].
  rewrite <- (Hc Hro Heff true changed eq_refl Hreal). reflexivity.
Defined.

Lemma keyspace_delete_idempotent_witness :
  let first := keyspace_delete false "foo" foo_cluster in
  let second := keyspace_delete false "foo" (final first) in
  outcome first = inr true ∧ outcome second = inr false.
Proof.
  destruct (keyspace_delete_idempotent "foo" foo_cluster [metadata_row "foo"]
              foo_cluster [] ∅ [] ∅) as (H1 & _ & H2 & _); [reflexivity ..|].
  split; [exact H1|exact H2].
Defined.

Lemma create_then_delete_witness :
  let created := keyspace_create false "foo" "SimpleStrategy" "datacenter1" 1 true
                   (∅ : cluster) in
  let deleted := keyspace_delete false "foo" (final created) in
  outcome created = inr true ∧ outcome deleted = inr true ∧ final deleted = ∅.
Proof.
  destruct (create_then_delete "foo" "SimpleStrategy" "datacenter1" 1 true
              (∅ : cluster) [] ∅ [] foo_cluster [metadata_row "foo"] [] ∅)
    as (H1 & _ & H2 & _ & H3); [reflexivity ..|].
  split; [exact H1|]. split; [exact H2|exact H3].
Defined.

Lemma present_result_compares_reads_witness :
  let r := keyspace_create false "foo" "SimpleStrategy" "datacenter1" 1 true
             altered_row_script in
  outcome r = inr true ∧ mutations (trace r) = [].
Proof.
  destruct (present_result_compares_reads "foo" "SimpleStrategy" "datacenter1" 1 true
              altered_row_script [{[ "durable_writes" := "True" ]}]
              [inr [{[ "durable_writes" := "False" ]}]]
              [{[ "durable_writes" := "False" ]}] [])
    as [(changed & Ho & Hiff) Hm]; [reflexivity ..|].
  split; [|exact Hm].
  rewrite Ho. f_equal. apply Hiff.
  intros Heq.
  apply (f_equal (λ o : option (gmap string string),
                    o ≫= (λ m, m !! "durable_writes"))) in Heq.
  vm_compute in Heq. discriminate Heq.
Defined.

Lemma quotes_not_escaped_witness :
  keyspace_create false "foo" "NetworkTopologyStrategy" "dc1', 'dc2" 3 true (∅ : cluster)
  = keyspace_create false "foo" "NetworkTopologyStrategy', 'dc1" "dc2" 3 true (∅ : cluster).
Proof.
  apply (quotes_not_escaped false "foo" "NetworkTopologyStrategy" "dc1" "dc2" 3 true
           (∅ : cluster)).
  discriminate.
Defined.
